(** * mlserver.grpc.server: the gRPC server lifecycle manager

    A shallow embedding of [mlserver/grpc/server.py].  The class
    [GRPCServer] owns a configuration object and two handler references; its
    methods build a [grpc.aio] server, register two servicers, bind a
    plaintext port, start the server, log one line, wait for termination,
    and stop the server with a grace period.

    Every call into [grpc.aio] and into the logger is an effect; an
    [await] on a transport coroutine is a call from which the method goes
    on once the coroutine has finished, with its result or its exception.

    The embedding threads an explicit state through the methods: the
    [GRPCServer] object (its attributes are assigned one by one, and an
    assignment made before an exception stays made) and the outside world,
    which records every call with its outcome.  Whether a call on the
    transport or on the logger raises is decided by the section variable
    [raises], so each theorem covers the executions in which one of them
    fails as well as those in which none does. *)

From Stdlib Require Import ZArith List String.
From Stdlib Require Import DecimalString DecimalPos DecimalZ.
Import ListNotations.
Open Scope Z_scope.
Open Scope string_scope.
Open Scope list_scope.

(** ** Python values used by the module *)

(** Python's [int] is unbounded. *)
Definition PyInt := Z.

(** [str(n)] for an [int], as an f-string field renders it: decimal digits,
    a leading minus sign for negative numbers. *)
Definition py_str_int (n : PyInt) : string :=
  NilZero.string_of_int (Z.to_int n).

(** References to the collaborators handed to the constructor.  The module
    never looks inside them; it only passes them on. *)
Inductive DataPlane := DataPlaneRef (id : nat).
Inductive ModelRepositoryHandlers := ModelRepositoryHandlersRef (id : nat).

(** Modelled from the spec: the classes [InferenceServicer] and
    [ModelRepositoryServicer] of [mlserver/grpc/servicers.py], which this
    module only constructs.  Each is a stateless bridge that holds a
    reference to the handler it was built from. *)
Inductive InferenceServicer := mkInferenceServicer (data_plane : DataPlane).
Inductive ModelRepositoryServicer :=
  mkModelRepositoryServicer (handlers : ModelRepositoryHandlers).

(** Modelled from the spec: the class [LoggingInterceptor] of
    [mlserver/grpc/interceptors.py]; it is built without argument and is
    the one entry of the interceptor chain. *)
Inductive Interceptor := LoggingInterceptor.

(** [ThreadPoolExecutor(max_workers=n)]. *)
Record ThreadPoolExecutor := mkThreadPoolExecutor { max_workers : PyInt }.

(** A handle on a server object returned by [aio.server]; two handles are
    the same object exactly when their numbers agree. *)
Inductive Server := ServerRef (id : nat).

(** Workers used for non-AsyncIO workloads. *)
Definition DefaultGrpcWorkers : PyInt := 5.

(** ** The outside world: calls into [grpc.aio] and the logger *)

(** The calls the module can make on the transport and on the logger.
    [add_secure_port] is part of the server's interface as well; the module
    never calls it, and the theorems about the bound endpoint say so. *)
Inductive Call :=
| aio_server (migration_thread_pool : ThreadPoolExecutor)
             (interceptors : list Interceptor)
             (options : list (string * PyInt))
| add_GRPCInferenceServiceServicer_to_server
    (servicer : InferenceServicer) (server : Server)
| add_ModelRepositoryServiceServicer_to_server
    (servicer : ModelRepositoryServicer) (server : Server)
| add_insecure_port (server : Server) (address : string)
| add_secure_port (server : Server) (address : string)
| server_start (server : Server)
| wait_for_termination (server : Server)
| server_stop (server : Server) (grace : PyInt)
| logger_info (msg : string).

Inductive Outcome := Returned | Raised.

(** One entry per call, in the order the calls were made. *)
Definition Entry := (Call * Outcome)%type.
Definition Trace := list Entry.

Definition is_created (e : Entry) : bool :=
  match e with
  | (aio_server _ _ _, Returned) => true
  | _ => false
  end.

(** How many server objects [aio.server] has handed out so far. *)
Definition servers_created (t : Trace) : nat :=
  List.length (List.filter is_created t).

Definition is_log (e : Entry) : bool :=
  match e with
  | (logger_info _, _) => true
  | _ => false
  end.

Definition log_lines (t : Trace) : nat :=
  List.length (List.filter is_log t).

(** ** Exceptions and results *)

(** [AttributeError name]: an attribute that was never assigned is read.
    [TransportError c]: the exception the outside call [c] raised, be it a
    call on the transport or on the logger. *)
Inductive Exn :=
| AttributeError (name : string)
| TransportError (c : Call).

Inductive Result (A : Type) :=
| Ok (a : A)
| Raise (e : Exn).
Arguments Ok {A} a.
Arguments Raise {A} e.

Section Lifecycle.

(** The fields of the configuration object that [server.py] never reads. *)
Variable Rest : Type.

(** The behaviour of the outside world, transport and logger alike: given
    the calls made so far, does this call raise? *)
Variable raises : Trace -> Call -> bool.

(** ** Data model *)

(** Modelled from the spec: the class [Settings] of [mlserver/settings.py],
    which this module only reads.  The configuration has a host address (a
    string), an RPC port (an integer) and an optional maximum message
    length (an integer, or absent); [rest] holds its other fields. *)
Record Settings := mkSettings {
  host : string;
  grpc_port : PyInt;
  grpc_max_message_length : option PyInt;
  rest : Rest
}.

(** The attributes of a [GRPCServer] object.  [__init__] assigns the first
    three; the others do not exist until [_create_server] assigns them. *)
Record GRPCServer := mkGRPCServer {
  _settings : Settings;
  _data_plane : DataPlane;
  _model_repository_handlers : ModelRepositoryHandlers;
  _inference_servicer : option InferenceServicer;
  _model_repository_servicer : option ModelRepositoryServicer;
  _server : option Server
}.

Record State := mkState {
  self : GRPCServer;
  world : Trace
}.

(** ** The monad of methods: state that survives an exception *)

Definition M (A : Type) : Type := State -> Result A * State.

Definition ret {A} (a : A) : M A := fun st => (Ok a, st).

Definition bind {A B} (m : M A) (k : A -> M B) : M B :=
  fun st =>
    match m st with
    | (Ok a, st') => k a st'
    | (Raise e, st') => (Raise e, st')
    end.

Notation "x <- c1 ;; c2" := (bind c1 (fun x => c2))
  (at level 61, c1 at next level, right associativity).
Notation "c1 ;; c2" := (bind c1 (fun _ => c2))
  (at level 61, right associativity).

Definition get_self : M GRPCServer := fun st => (Ok (self st), st).

(** Reading an attribute that was never assigned raises. *)
Definition getattr {A} (name : string) (field : GRPCServer -> option A)
  : M A :=
  fun st =>
    match field (self st) with
    | Some v => (Ok v, st)
    | None => (Raise (AttributeError name), st)
    end.

Definition set_inference_servicer (v : InferenceServicer) : M unit :=
  fun st =>
    let s := self st in
    (Ok tt,
     mkState (mkGRPCServer (_settings s) (_data_plane s)
                (_model_repository_handlers s)
                (Some v) (_model_repository_servicer s) (_server s))
             (world st)).

Definition set_model_repository_servicer (v : ModelRepositoryServicer)
  : M unit :=
  fun st =>
    let s := self st in
    (Ok tt,
     mkState (mkGRPCServer (_settings s) (_data_plane s)
                (_model_repository_handlers s)
                (_inference_servicer s) (Some v) (_server s))
             (world st)).

Definition set_server (v : Server) : M unit :=
  fun st =>
    let s := self st in
    (Ok tt,
     mkState (mkGRPCServer (_settings s) (_data_plane s)
                (_model_repository_handlers s)
                (_inference_servicer s) (_model_repository_servicer s)
                (Some v))
             (world st)).

(** A call on the outside world, the logger included: it is recorded with
    its outcome, and an exception it raises propagates. *)
Definition call (c : Call) : M unit :=
  fun st =>
    let t := world st in
    if raises t c
    then (Raise (TransportError c), mkState (self st) (t ++ [(c, Raised)]))
    else (Ok tt, mkState (self st) (t ++ [(c, Returned)])).

(** [aio.server(...)] returns a new server object. *)
Definition new_server (pool : ThreadPoolExecutor)
           (interceptors : list Interceptor)
           (options : list (string * PyInt)) : M Server :=
  fun st =>
    let fresh := ServerRef (servers_created (world st)) in
    (call (aio_server pool interceptors options) ;; ret fresh) st.

(** ** The class *)

Definition __init__ (settings : Settings) (data_plane : DataPlane)
           (model_repository_handlers : ModelRepositoryHandlers)
  : GRPCServer :=
  mkGRPCServer settings data_plane model_repository_handlers
               None None None.

Definition _get_options : M (list (string * PyInt)) :=
  let options := [] in
  self <- get_self ;;
  let max_message_length := grpc_max_message_length (_settings self) in
  match max_message_length with
  | Some max_message_length =>
      let options :=
        options ++
        [ ("grpc.max_message_length", max_message_length);
          ("grpc.max_send_message_length", max_message_length);
          ("grpc.max_receive_message_length", max_message_length) ] in
      ret options
  | None => ret options
  end.

Definition _create_server : M Server :=
  self <- get_self ;;
  set_inference_servicer (mkInferenceServicer (_data_plane self)) ;;
  set_model_repository_servicer
    (mkModelRepositoryServicer (_model_repository_handlers self)) ;;
  let logging_interceptor := LoggingInterceptor in
  options <- _get_options ;;
  server <- new_server (mkThreadPoolExecutor DefaultGrpcWorkers)
                       [logging_interceptor] options ;;
  set_server server ;;
  servicer <- getattr "_inference_servicer" _inference_servicer ;;
  server <- getattr "_server" _server ;;
  call (add_GRPCInferenceServiceServicer_to_server servicer server) ;;
  servicer <- getattr "_model_repository_servicer"
                      _model_repository_servicer ;;
  server <- getattr "_server" _server ;;
  call (add_ModelRepositoryServiceServicer_to_server servicer server) ;;
  server <- getattr "_server" _server ;;
  self <- get_self ;;
  call (add_insecure_port server
          (host (_settings self) ++ ":" ++
           py_str_int (grpc_port (_settings self)))%string) ;;
  getattr "_server" _server.

Definition start : M unit :=
  _create_server ;;
  server <- getattr "_server" _server ;;
  call (server_start server) ;;
  self <- get_self ;;
  call (logger_info
          ("gRPC server running on " ++
           ("http://" ++ host (_settings self) ++ ":" ++
            py_str_int (grpc_port (_settings self))))%string) ;;
  server <- getattr "_server" _server ;;
  call (wait_for_termination server).

Definition stop : M unit :=
  server <- getattr "_server" _server ;;
  call (server_stop server 5).

(** The calls a method made: what it appended to the record. *)
Definition emitted {A} (m : M A) (st : State) : Trace :=
  skipn (List.length (world st)) (world (snd (m st))).

(** A list of calls made one after the other, up to the first one that
    raises: the entries recorded and the call that raised, if any. *)
Fixpoint run_calls (t : Trace) (cs : list Call) : Trace * option Call :=
  match cs with
  | [] => ([], None)
  | c :: cs' =>
      if raises t c then ([(c, Raised)], Some c)
      else let (es, failed) := run_calls (t ++ [(c, Returned)]) cs' in
           ((c, Returned) :: es, failed)
  end.

End Lifecycle.

Arguments mkSettings {Rest}.
Arguments host {Rest}.
Arguments grpc_port {Rest}.
Arguments grpc_max_message_length {Rest}.
Arguments rest {Rest}.
Arguments mkGRPCServer {Rest}.
Arguments _settings {Rest}.
Arguments _data_plane {Rest}.
Arguments _model_repository_handlers {Rest}.
Arguments _inference_servicer {Rest}.
Arguments _model_repository_servicer {Rest}.
Arguments _server {Rest}.
Arguments mkState {Rest}.
Arguments self {Rest}.
Arguments world {Rest}.
Arguments ret {Rest A}.
Arguments bind {Rest A B}.
Arguments get_self {Rest}.
Arguments getattr {Rest A}.
Arguments set_inference_servicer {Rest}.
Arguments set_model_repository_servicer {Rest}.
Arguments set_server {Rest}.
Arguments call {Rest}.
Arguments new_server {Rest}.
Arguments __init__ {Rest}.
Arguments _get_options {Rest}.
Arguments _create_server {Rest}.
Arguments start {Rest}.
Arguments stop {Rest}.
Arguments emitted {Rest A}.

(** ** Derived notions used by the statements *)

(** The address the f-string in [_create_server] builds. *)
Definition address {Rest} (cfg : Settings Rest) : string :=
  (host cfg ++ ":" ++ py_str_int (grpc_port cfg))%string.

(** [s] occurs inside [msg]. *)
Definition occurs_in (s msg : string) : Prop :=
  exists before after, msg = (before ++ s ++ after)%string.

Definition returned (c : Call) : Entry := (c, Returned).

Definition is_port (c : Call) : bool :=
  match c with
  | add_insecure_port _ _ | add_secure_port _ _ => true
  | _ => false
  end.

Definition is_aio_server (c : Call) : bool :=
  match c with
  | aio_server _ _ _ => true
  | _ => false
  end.

(** A transport on which no call raises. *)
Definition never_raises : Trace -> Call -> bool := fun _ _ => false.

(** A transport that refuses to bind any port. *)
Definition bind_refused : Trace -> Call -> bool :=
  fun _ c => is_port c.

(** The configuration of the first scenario: no size limit. *)
Definition settings_default : Settings unit :=
  mkSettings "0.0.0.0" 8081 None tt.

(** The configuration of the second scenario: 4 MiB messages. *)
Definition settings_4MiB : Settings unit :=
  mkSettings "localhost" 9000 (Some 4194304) tt.

(** A configuration with a negative size limit. *)
Definition settings_negative : Settings unit :=
  mkSettings "0.0.0.0" 8081 (Some (-1)) tt.

(** Two configurations that agree on the size limit and on nothing else;
    here the configuration has one more field, a flag. *)
Definition settings_flag_on : Settings bool :=
  mkSettings "0.0.0.0" 8081 (Some 1024) true.

Definition settings_flag_off : Settings bool :=
  mkSettings "127.0.0.1" 50051 (Some 1024) false.

Definition fresh_state (cfg : Settings unit) : State unit :=
  mkState (__init__ cfg (DataPlaneRef 0) (ModelRepositoryHandlersRef 0)) [].

(** Run [m] and keep the state it leaves. *)
Definition exec {Rest A} (m : M Rest A) (st : State Rest) : State Rest :=
  snd (m st).

(** The handle [aio.server] returns when called in state [st]. *)
Definition fresh_server {Rest} (st : State Rest) : Server :=
  ServerRef (servers_created (world st)).

(** The option list [_get_options] returns in state [st]. *)
Definition options_at {Rest} (st : State Rest) : list (string * PyInt) :=
  match fst (_get_options st) with
  | Ok options => options
  | Raise _ => []
  end.

(** The line [start] logs. *)
Definition running_message {Rest} (cfg : Settings Rest) : string :=
  ("gRPC server running on " ++ "http://" ++ address cfg)%string.

(** The calls of [_create_server], in program order. *)
Definition create_script {Rest} (st : State Rest) : list Call :=
  let s := self st in
  [ aio_server (mkThreadPoolExecutor DefaultGrpcWorkers)
               [LoggingInterceptor] (options_at st);
    add_GRPCInferenceServiceServicer_to_server
      (mkInferenceServicer (_data_plane s)) (fresh_server st);
    add_ModelRepositoryServiceServicer_to_server
      (mkModelRepositoryServicer (_model_repository_handlers s))
      (fresh_server st);
    add_insecure_port (fresh_server st) (address (_settings s)) ].

(** The calls [start] makes once [_create_server] has returned. *)
Definition listen_script {Rest} (st : State Rest) : list Call :=
  [ server_start (fresh_server st);
    logger_info (running_message (_settings (self st)));
    wait_for_termination (fresh_server st) ].

(** The attributes of the object after [_create_server] ran from [st]:
    both servicers are assigned; [_server] is assigned only when
    [aio.server] returned. *)
Definition assigned {Rest} (st : State Rest) (created : bool)
  : GRPCServer Rest :=
  let s := self st in
  mkGRPCServer (_settings s) (_data_plane s) (_model_repository_handlers s)
    (Some (mkInferenceServicer (_data_plane s)))
    (Some (mkModelRepositoryServicer (_model_repository_handlers s)))
    (if created then Some (fresh_server st) else _server s).

(** A manager built from the first scenario's configuration, after one
    [start] that ran to its end on a transport that never raises, and after
    a second one. *)
Definition started_once : State unit :=
  exec (start never_raises) (fresh_state settings_default).

Definition started_twice : State unit :=
  exec (start never_raises) started_once.

(** ** Notions used by the further properties *)

(** The server a call is made on, when it is made on one. *)
Definition server_of (c : Call) : option Server :=
  match c with
  | aio_server _ _ _ => None
  | add_GRPCInferenceServiceServicer_to_server _ server => Some server
  | add_ModelRepositoryServiceServicer_to_server _ server => Some server
  | add_insecure_port server _ => Some server
  | add_secure_port server _ => Some server
  | server_start server => Some server
  | wait_for_termination server => Some server
  | server_stop server _ => Some server
  | logger_info _ => None
  end.

Definition is_stop (c : Call) : bool :=
  match c with
  | server_stop _ _ => true
  | _ => false
  end.

(** The methods a caller can invoke on a manager. *)
Inductive Method :=
| call_start
| call_stop
| call_create_server
| call_get_options.

(** One invocation; the caller goes on whether it returned or raised. *)
Definition invoke {Rest} (raises : Trace -> Call -> bool) (m : Method)
           (st : State Rest) : State Rest :=
  match m with
  | call_start => exec (start raises) st
  | call_stop => exec (stop raises) st
  | call_create_server => exec (_create_server raises) st
  | call_get_options => exec _get_options st
  end.

(** Any sequence of invocations on the same manager. *)
Definition session {Rest} (raises : Trace -> Call -> bool)
           (ms : list Method) (st : State Rest) : State Rest :=
  fold_left (fun st m => invoke raises m st) ms st.

(** A manager is well formed when, if it holds a server, that server is the
    last one [aio.server] handed out and both servicers are assigned and
    wrap the manager's own handlers. *)
Definition well_formed {Rest} (st : State Rest) : Prop :=
  forall server,
    _server (self st) = Some server ->
    (exists n, servers_created (world st) = S n /\ server = ServerRef n) /\
    _inference_servicer (self st) =
    Some (mkInferenceServicer (_data_plane (self st))) /\
    _model_repository_servicer (self st) =
    Some (mkModelRepositoryServicer (_model_repository_handlers (self st))).

(** A transport on which [aio.server] raises. *)
Definition aio_refused : Trace -> Call -> bool :=
  fun _ c => is_aio_server c.

(** An outside world in which the logger raises. *)
Definition log_refused : Trace -> Call -> bool :=
  fun _ c => match c with logger_info _ => true | _ => false end.

(** A transport on which the server cannot be started. *)
Definition start_refused : Trace -> Call -> bool :=
  fun _ c => match c with server_start _ => true | _ => false end.

(** ** Proof steps shared by the theorems *)

(** Decide, one after the other, whether each call of a script raised. *)
Ltac each_outcome raises :=
  repeat match goal with
         | |- context [if raises ?h ?c then _ else _] =>
             destruct (raises h c) eqn:?; simpl
         | H : context [if raises ?h ?c then _ else _] |- _ =>
             destruct (raises h c) eqn:?; simpl in H
         end.

(** From [l = pre ++ e :: post] with [l] a list written out, find [pre]. *)
Ltac locate H :=
  repeat match type of H with
         | _ = ?pre ++ _ :: _ =>
             destruct pre as [|? pre]; simpl in H;
             [ try discriminate H
             | try discriminate H; injection H as ? H; subst ]
         end.

(** Go through the members of a list written out. *)
Ltac each_member H :=
  simpl in H;
  repeat match type of H with
         | _ \/ _ => destruct H as [H|H]
         end;
  try contradiction.

(** ** The scenarios, run *)

Example py_str_int_8081 : py_str_int 8081 = "8081".
Proof. reflexivity. Qed.

Example py_str_int_neg : py_str_int (-1) = "-1".
Proof. reflexivity. Qed.

Example py_str_int_zero : py_str_int 0 = "0".
Proof. reflexivity. Qed.

Example start_default_trace :
  world (exec (start never_raises) (fresh_state settings_default)) =
  [ returned (aio_server (mkThreadPoolExecutor 5) [LoggingInterceptor] []);
    returned (add_GRPCInferenceServiceServicer_to_server
                (mkInferenceServicer (DataPlaneRef 0)) (ServerRef 0));
    returned (add_ModelRepositoryServiceServicer_to_server
                (mkModelRepositoryServicer (ModelRepositoryHandlersRef 0))
                (ServerRef 0));
    returned (add_insecure_port (ServerRef 0) "0.0.0.0:8081");
    returned (server_start (ServerRef 0));
    returned (logger_info "gRPC server running on http://0.0.0.0:8081");
    returned (wait_for_termination (ServerRef 0)) ].
Proof. reflexivity. Qed.

Example start_bind_refused :
  start bind_refused (fresh_state settings_default) =
  (Raise (TransportError (add_insecure_port (ServerRef 0) "0.0.0.0:8081")),
   mkState
     (mkGRPCServer settings_default (DataPlaneRef 0)
        (ModelRepositoryHandlersRef 0)
        (Some (mkInferenceServicer (DataPlaneRef 0)))
        (Some (mkModelRepositoryServicer (ModelRepositoryHandlersRef 0)))
        (Some (ServerRef 0)))
     [ returned (aio_server (mkThreadPoolExecutor 5) [LoggingInterceptor] []);
       returned (add_GRPCInferenceServiceServicer_to_server
                   (mkInferenceServicer (DataPlaneRef 0)) (ServerRef 0));
       returned (add_ModelRepositoryServiceServicer_to_server
                   (mkModelRepositoryServicer (ModelRepositoryHandlersRef 0))
                   (ServerRef 0));
       (add_insecure_port (ServerRef 0) "0.0.0.0:8081", Raised) ]).
Proof. reflexivity. Qed.

Example start_log_refused :
  fst (start log_refused (fresh_state settings_default)) =
  Raise (TransportError
           (logger_info "gRPC server running on http://0.0.0.0:8081")) /\
  emitted (start log_refused) (fresh_state settings_default) =
  [ returned (aio_server (mkThreadPoolExecutor 5) [LoggingInterceptor] []);
    returned (add_GRPCInferenceServiceServicer_to_server
                (mkInferenceServicer (DataPlaneRef 0)) (ServerRef 0));
    returned (add_ModelRepositoryServiceServicer_to_server
                (mkModelRepositoryServicer (ModelRepositoryHandlersRef 0))
                (ServerRef 0));
    returned (add_insecure_port (ServerRef 0) "0.0.0.0:8081");
    returned (server_start (ServerRef 0));
    (logger_info "gRPC server running on http://0.0.0.0:8081", Raised) ].
Proof. split; reflexivity. Qed.

Example stop_unstarted :
  stop never_raises (fresh_state settings_default) =
  (Raise (AttributeError "_server"), fresh_state settings_default).
Proof. reflexivity. Qed.

(** * Properties *)

Section Properties.

Variable Rest : Type.
Variable raises : Trace -> Call -> bool.

Implicit Types (st : State Rest) (t es : Trace) (cs : list Call).

(** ** Sequences of calls *)

Lemma run_calls_shape : forall cs t,
  exists done_ todo,
    cs = done_ ++ todo /\
    match snd (run_calls raises t cs) with
    | None => todo = [] /\ fst (run_calls raises t cs) = map returned done_
    | Some c =>
        exists todo', todo = c :: todo' /\
        fst (run_calls raises t cs) = map returned done_ ++ [(c, Raised)]
    end.
Proof.
  induction cs as [|c cs IH]; intros t; simpl.
  - exists [], []. repeat split.
  - destruct (raises t c) eqn:Hc; simpl.
    + exists [], (c :: cs). split; [reflexivity|].
      exists cs. split; reflexivity.
    + destruct (IH (t ++ [(c, Returned)])) as (d & td & Hcs & Hrun).
      destruct (run_calls raises (t ++ [(c, Returned)]) cs) as [es failed].
      simpl in *. exists (c :: d), td. split.
      * rewrite Hcs. reflexivity.
      * destruct failed as [c'|].
        -- destruct Hrun as (td' & Htd & Hes). exists td'.
           split; [assumption|]. rewrite Hes. reflexivity.
        -- destruct Hrun as [Htd Hes]. split; [assumption|].
           rewrite Hes. reflexivity.
Qed.

Lemma run_calls_raised : forall cs t c,
  snd (run_calls raises t cs) = Some c ->
  In (c, Raised) (fst (run_calls raises t cs)).
Proof.
  intros cs t c H.
  destruct (run_calls_shape cs t) as (done_ & todo & _ & Hshape).
  rewrite H in Hshape. destruct Hshape as (todo' & _ & Hes).
  rewrite Hes. apply in_or_app. right. left. reflexivity.
Qed.

Lemma run_calls_returned : forall cs t,
  snd (run_calls raises t cs) = None ->
  fst (run_calls raises t cs) = map returned cs.
Proof.
  intros cs t H.
  destruct (run_calls_shape cs t) as (done_ & todo & Hcs & Hshape).
  rewrite H in Hshape. destruct Hshape as [Htodo Hes].
  rewrite Hes, Hcs, Htodo, app_nil_r. reflexivity.
Qed.

Lemma skipn_emitted : forall t es, skipn (List.length t) (t ++ es) = es.
Proof.
  intros t es. rewrite skipn_app, skipn_all, Nat.sub_diag. reflexivity.
Qed.

Lemma append_assoc : forall a b c : string,
  ((a ++ b) ++ c)%string = (a ++ (b ++ c))%string.
Proof.
  induction a as [|ch a IH]; intros b c; simpl.
  - reflexivity.
  - rewrite IH. reflexivity.
Qed.

Lemma append_empty_r : forall a : string, (a ++ "")%string = a.
Proof.
  induction a as [|ch a IH]; simpl; [reflexivity | now rewrite IH].
Qed.

Lemma servers_created_app : forall t es,
  servers_created (t ++ es) = (servers_created t + servers_created es)%nat.
Proof.
  intros t es. unfold servers_created.
  rewrite filter_app, length_app. reflexivity.
Qed.

(** ** What the methods do, call by call *)

Lemma _get_options_run : forall st,
  _get_options st = (Ok (options_at st), st).
Proof.
  intros st. unfold options_at, _get_options, bind, get_self, ret.
  destruct (grpc_max_message_length (_settings (self st))); reflexivity.
Qed.

Lemma options_at_settings : forall st st',
  grpc_max_message_length (_settings (self st)) =
  grpc_max_message_length (_settings (self st')) ->
  options_at st = options_at st'.
Proof.
  intros st st' H. unfold options_at, _get_options, bind, get_self, ret.
  simpl. rewrite H.
  destruct (grpc_max_message_length (_settings (self st'))); reflexivity.
Qed.

Lemma _create_server_run : forall st,
  _create_server raises st =
  (match snd (run_calls raises (world st) (create_script st)) with
   | None => Ok (fresh_server st)
   | Some c => Raise (TransportError c)
   end,
   mkState
     (assigned st
        (negb (raises (world st)
                 (aio_server (mkThreadPoolExecutor DefaultGrpcWorkers)
                             [LoggingInterceptor] (options_at st)))))
     (world st ++ fst (run_calls raises (world st) (create_script st)))).
Proof.
  intros st. destruct st as [s t].
  unfold _create_server, new_server, bind, get_self,
    set_inference_servicer, set_model_repository_servicer; simpl.
  rewrite _get_options_run; simpl.
  rewrite (options_at_settings _ (mkState s t)) by reflexivity.
  unfold call, getattr, ret, fresh_server, address; simpl.
  repeat match goal with
         | |- context [if raises ?h ?c then _ else _] =>
             destruct (raises h c) eqn:?; simpl
         end.
  all: rewrite <- ?app_assoc; reflexivity.
Qed.

Lemma start_run : forall st,
  start raises st =
  (match snd (run_calls raises (world st)
                (create_script st ++ listen_script st)) with
   | None => Ok tt
   | Some c => Raise (TransportError c)
   end,
   mkState
     (assigned st
        (negb (raises (world st)
                 (aio_server (mkThreadPoolExecutor DefaultGrpcWorkers)
                             [LoggingInterceptor] (options_at st)))))
     (world st ++
      fst (run_calls raises (world st)
             (create_script st ++ listen_script st)))).
Proof.
  intros st. destruct st as [s t].
  unfold start, _create_server, new_server, bind, get_self,
    set_inference_servicer, set_model_repository_servicer, set_server;
    simpl.
  rewrite _get_options_run; simpl.
  rewrite (options_at_settings _ (mkState s t)) by reflexivity.
  unfold call, getattr, ret, fresh_server, running_message, address; simpl.
  repeat match goal with
         | |- context [if raises ?h ?c then _ else _] =>
             destruct (raises h c) eqn:?; simpl
         end.
  all: rewrite <- ?app_assoc; reflexivity.
Qed.

Lemma stop_run : forall st,
  stop raises st =
  match _server (self st) with
  | Some server => call raises (server_stop server 5) st
  | None => (Raise (AttributeError "_server"), st)
  end.
Proof.
  intros st. unfold stop, bind, getattr.
  destruct (_server (self st)); reflexivity.
Qed.

Lemma emitted_create : forall st,
  emitted (_create_server raises) st =
  fst (run_calls raises (world st) (create_script st)).
Proof.
  intros st. unfold emitted. rewrite _create_server_run. simpl.
  apply skipn_emitted.
Qed.

Lemma emitted_start : forall st,
  emitted (start raises) st =
  fst (run_calls raises (world st) (create_script st ++ listen_script st)).
Proof.
  intros st. unfold emitted. rewrite start_run. simpl.
  apply skipn_emitted.
Qed.

Lemma emitted_stop : forall st,
  emitted (stop raises) st =
  match _server (self st) with
  | Some server =>
      [(server_stop server 5,
        if raises (world st) (server_stop server 5)
        then Raised else Returned)]
  | None => []
  end.
Proof.
  intros st. unfold emitted. rewrite stop_run.
  destruct (_server (self st)) as [server|]; simpl.
  - unfold call; simpl.
    destruct (raises (world st) (server_stop server 5)); simpl;
      apply skipn_emitted.
  - rewrite <- (app_nil_r (world st)) at 2. apply skipn_emitted.
Qed.

(** ** The option builder *)

(** C1: when the maximum message length is present with value [N],
    [_get_options] returns exactly the three entries
    [grpc.max_message_length], [grpc.max_send_message_length] and
    [grpc.max_receive_message_length], each with value [N], in that order;
    when it is absent, it returns the empty list.  In both cases the
    object and the outside world are left as they were. *)
Theorem get_options_entries : forall st,
  (forall N,
      grpc_max_message_length (_settings (self st)) = Some N ->
      _get_options st =
      (Ok [ ("grpc.max_message_length", N);
            ("grpc.max_send_message_length", N);
            ("grpc.max_receive_message_length", N) ], st)) /\
  (grpc_max_message_length (_settings (self st)) = None ->
   _get_options st = (Ok [], st)).
Proof.
  intros st. split.
  - intros N HN. unfold _get_options, bind, get_self, ret.
    rewrite HN. reflexivity.
  - intros HN. unfold _get_options, bind, get_self, ret.
    rewrite HN. reflexivity.
Qed.

(** C5: [_get_options] raises nothing, whatever integer the maximum
    message length holds (negative ones included): it returns normally,
    and a present value [N] is the value of each of the three entries,
    unchanged. *)
Theorem get_options_passes_through : forall st,
  exists options,
    _get_options st = (Ok options, st) /\
    forall N,
      grpc_max_message_length (_settings (self st)) = Some N ->
      map snd options = [N; N; N].
Proof.
  intros st. exists (options_at st). split.
  - apply _get_options_run.
  - intros N HN. unfold options_at, _get_options, bind, get_self, ret.
    rewrite HN. reflexivity.
Qed.

(** C10: [_get_options] depends on the configuration through
    [grpc_max_message_length] only: on two states whose configurations
    agree on that field (and may differ in host, port, every other field,
    the handlers and the record of calls) it returns the same list. *)
Theorem get_options_noninterference : forall st1 st2 : State Rest,
  grpc_max_message_length (_settings (self st1)) =
  grpc_max_message_length (_settings (self st2)) ->
  fst (_get_options st1) = fst (_get_options st2).
Proof.
  intros st1 st2 H. rewrite !_get_options_run. simpl.
  f_equal. apply options_at_settings. exact H.
Qed.

(** ** Server construction *)

(** C9: whatever the configuration, the first call of [_create_server] is
    [aio.server] with a thread pool of 5 workers, and it is the only
    [aio.server] call of the construction. *)
Theorem create_server_worker_pool : forall st,
  exists interceptors options outcome others,
    emitted (_create_server raises) st =
    (aio_server (mkThreadPoolExecutor 5) interceptors options, outcome)
      :: others /\
    forallb (fun e => negb (is_aio_server (fst e))) others = true.
Proof.
  intros st. rewrite emitted_create. unfold create_script. simpl.
  each_outcome raises; repeat eexists; reflexivity.
Qed.

(** C6: in every execution of [_create_server], when the address is bound,
    the inference servicer and the model-repository servicer have both been
    registered on that same server before, and the registrations returned;
    nothing is registered after the binding. *)
Theorem create_server_registers_before_bind :
  forall st pre post server addr outcome,
    emitted (_create_server raises) st =
    pre ++ (add_insecure_port server addr, outcome) :: post ->
    In (returned (add_GRPCInferenceServiceServicer_to_server
                    (mkInferenceServicer (_data_plane (self st))) server))
       pre /\
    In (returned (add_ModelRepositoryServiceServicer_to_server
                    (mkModelRepositoryServicer
                       (_model_repository_handlers (self st))) server))
       pre /\
    post = [].
Proof.
  intros st pre post server addr outcome H.
  rewrite emitted_create in H. unfold create_script in H. simpl in H.
  each_outcome raises; locate H.
  all: injection H as ? ? ? ?; subst; simpl; unfold returned; tauto.
Qed.

(** C8: the only port [_create_server] binds is an insecure (plaintext)
    one, on the server just created, at the address made of the configured
    host, a colon and the configured port in decimal; and when
    [_create_server] returns, that binding is its last call and it
    returned. *)
Theorem create_server_binds_insecure : forall st,
  let cfg := _settings (self st) in
  let addr := (host cfg ++ ":" ++ py_str_int (grpc_port cfg))%string in
  (forall c outcome,
      In (c, outcome) (emitted (_create_server raises) st) ->
      is_port c = true ->
      c = add_insecure_port (fresh_server st) addr) /\
  (forall server,
      fst (_create_server raises st) = Ok server ->
      exists pre,
        emitted (_create_server raises) st =
        pre ++ [returned (add_insecure_port server addr)] /\
        forallb (fun e => negb (is_port (fst e))) pre = true).
Proof.
  intros st cfg addr. subst cfg addr. split.
  - intros c outcome Hin Hport. rewrite emitted_create in Hin.
    unfold create_script in Hin. simpl in Hin.
    each_outcome raises; each_member Hin.
    all: injection Hin as ? ?; subst; try discriminate Hport; reflexivity.
  - intros server Hok. rewrite emitted_create.
    rewrite _create_server_run in Hok. cbn [fst] in Hok.
    destruct (snd (run_calls raises (world st) (create_script st)))
      eqn:Hfailed; [discriminate Hok|].
    injection Hok as <-. rewrite (run_calls_returned _ _ Hfailed).
    eexists [_; _; _]. split; reflexivity.
Qed.

(** ** Start and stop *)

(** C7: in every execution of [start] in which the server's [start]
    returned (the server listens), [logger.info] is called exactly once; the
    call comes right after the server started and before any wait for
    termination, and its message holds the scheme [http], the configured
    host and the configured port.  When the logging call returns, the wait
    for termination is the next and last call; when it raises, nothing
    follows. *)
Theorem start_logs_once_listening : forall st server,
  In (returned (server_start server)) (emitted (start raises) st) ->
  let cfg := _settings (self st) in
  let msg :=
    ("gRPC server running on " ++
     "http://" ++ host cfg ++ ":" ++ py_str_int (grpc_port cfg))%string in
  (exists pre outcome post,
      emitted (start raises) st =
      pre ++ returned (server_start server)
          :: (logger_info msg, outcome) :: post /\
      log_lines pre = 0%nat /\
      (forall waited outcome',
          ~ In (wait_for_termination waited, outcome') pre) /\
      match outcome with
      | Returned =>
          exists outcome', post = [(wait_for_termination server, outcome')]
      | Raised => post = []
      end) /\
  log_lines (emitted (start raises) st) = 1%nat /\
  occurs_in "http" msg /\
  occurs_in (host cfg) msg /\
  occurs_in (py_str_int (grpc_port cfg)) msg.
Proof.
  intros st server Hin cfg msg. subst cfg msg.
  rewrite emitted_start in *.
  unfold create_script, listen_script, running_message, address in *.
  simpl in *. split; [|split; [|split; [|split]]].
  - each_outcome raises; each_member Hin; try discriminate Hin.
    all: injection Hin as ?; subst.
    all: eexists [_; _; _; _]; eexists; eexists.
    all: split; [reflexivity|]; split; [reflexivity|]; split.
    all: try (intros waited outcome' Hwait; each_member Hwait;
              discriminate Hwait).
    all: simpl; try reflexivity.
    all: eexists; reflexivity.
  - each_outcome raises; each_member Hin; try discriminate Hin.
    all: reflexivity.
  - exists "gRPC server running on ".
    exists ("://" ++ host (_settings (self st)) ++ ":" ++
            py_str_int (grpc_port (_settings (self st))))%string.
    reflexivity.
  - exists "gRPC server running on http://".
    exists (":" ++ py_str_int (grpc_port (_settings (self st))))%string.
    reflexivity.
  - exists ("gRPC server running on http://" ++
            host (_settings (self st)) ++ ":")%string.
    exists "". simpl. rewrite append_empty_r, append_assoc. reflexivity.
Qed.

(** C4: whatever the configuration and the state of the manager, the only
    call [stop] can make is the [stop] of the manager's server with a grace
    of 5; on a manager that holds a server it makes exactly that call, and
    it returns only once the call has finished, with the call's outcome. *)
Theorem stop_requests_grace_5 : forall st,
  (forall c outcome,
      In (c, outcome) (emitted (stop raises) st) ->
      exists server,
        _server (self st) = Some server /\ c = server_stop server 5) /\
  (forall server,
      _server (self st) = Some server ->
      exists outcome,
        emitted (stop raises) st = [(server_stop server 5, outcome)] /\
        stop raises st =
        (match outcome with
         | Returned => Ok tt
         | Raised => Raise (TransportError (server_stop server 5))
         end,
         mkState (self st) (world st ++ [(server_stop server 5, outcome)]))).
Proof.
  intros st. split.
  - intros c outcome Hin. rewrite emitted_stop in Hin.
    destruct (_server (self st)) as [server|]; each_member Hin.
    injection Hin as <- _. exists server. split; reflexivity.
  - intros server Hsrv. rewrite emitted_stop, stop_run, Hsrv.
    unfold call. simpl.
    destruct (raises (world st) (server_stop server 5));
      eexists; split; reflexivity.
Qed.

(** C3, as the code has it: the constructor creates no server; [stop]
    neither creates a server nor changes the manager's handle; every
    [start] asks [aio.server] for a server, and when that call returns, a
    new instance exists and becomes the manager's handle, also when the
    manager already held one. *)
Theorem server_instance_per_start :
  (forall cfg dp mrh, _server (__init__ (Rest:=Rest) cfg dp mrh) = None) /\
  (forall st,
      _server (self (exec (stop raises) st)) = _server (self st) /\
      servers_created (world (exec (stop raises) st)) =
      servers_created (world st)) /\
  (forall st,
      let st' := exec (start raises) st in
      (servers_created (world st') = S (servers_created (world st)) /\
       _server (self st') = Some (ServerRef (servers_created (world st))))
      \/
      (servers_created (world st') = servers_created (world st) /\
       _server (self st') = _server (self st) /\
       exists c, is_aio_server c = true /\
                 fst (start raises st) = Raise (TransportError c))).
Proof.
  split; [|split].
  - reflexivity.
  - intros st. unfold exec. rewrite stop_run.
    destruct (_server (self st)) as [server|] eqn:Hsrv; simpl.
    + unfold call. simpl.
      destruct (raises (world st) (server_stop server 5)); simpl;
        rewrite servers_created_app; simpl; auto with arith.
    + auto.
  - intros st st'. subst st'. unfold exec. rewrite start_run.
    unfold create_script, listen_script. simpl.
    each_outcome raises; rewrite ?servers_created_app; simpl.
    all: try (left; split; [apply Nat.add_1_r | reflexivity]).
    right. rewrite Nat.add_0_r. repeat split.
    eexists. split; [|reflexivity]. reflexivity.
Qed.

(** C2, as the code has it: [stop] on a manager on which [start] was never
    called raises an [AttributeError] for [_server] at once, without a call
    on the transport and without changing anything; [start] checks no
    state: in any state of the manager, started before or not, the only
    errors it raises are those of the calls it makes on the transport and
    on the logger. *)
Theorem stop_unstarted_fails_start_unguarded :
  (forall cfg dp mrh t,
      stop raises (mkState (__init__ cfg dp mrh) t) =
      (Raise (AttributeError "_server"),
       mkState (__init__ (Rest:=Rest) cfg dp mrh) t)) /\
  (forall st e,
      fst (start raises st) = Raise e ->
      exists c, e = TransportError c /\
                In (c, Raised) (emitted (start raises) st)).
Proof.
  split.
  - intros cfg dp mrh t. reflexivity.
  - intros st e He. rewrite emitted_start. rewrite start_run in He.
    cbn [fst] in He.
    destruct (snd (run_calls raises (world st)
                     (create_script st ++ listen_script st)))
      as [c|] eqn:Hfailed; [|discriminate He].
    injection He as <-. exists c. split; [reflexivity|].
    apply run_calls_raised. exact Hfailed.
Qed.

End Properties.

(** * The theorems at work on the scenarios *)

Lemma get_options_entries_witness :
  _get_options (fresh_state settings_4MiB) =
  (Ok [ ("grpc.max_message_length", 4194304);
        ("grpc.max_send_message_length", 4194304);
        ("grpc.max_receive_message_length", 4194304) ],
   fresh_state settings_4MiB) /\
  _get_options (fresh_state settings_default) =
  (Ok [], fresh_state settings_default).
Proof.
  split.
  - apply (proj1 (get_options_entries unit (fresh_state settings_4MiB))).
    reflexivity.
  - apply (proj2 (get_options_entries unit (fresh_state settings_default))).
    reflexivity.
Defined.

Lemma get_options_passes_through_witness :
  grpc_max_message_length settings_negative = Some (-1) /\
  exists options,
    _get_options (fresh_state settings_negative) =
    (Ok options, fresh_state settings_negative) /\
    map snd options = [-1; -1; -1].
Proof.
  split; [reflexivity|].
  destruct (get_options_passes_through unit (fresh_state settings_negative))
    as (options & Hrun & Hvalues).
  exists options. split; [exact Hrun|].
  apply Hvalues. reflexivity.
Defined.

Lemma get_options_noninterference_witness :
  let st1 :=
    mkState (__init__ settings_flag_on (DataPlaneRef 0)
               (ModelRepositoryHandlersRef 0)) [] in
  let st2 :=
    mkState (__init__ settings_flag_off (DataPlaneRef 1)
               (ModelRepositoryHandlersRef 2))
            [returned (logger_info "up")] in
  grpc_max_message_length (_settings (self st1)) =
  grpc_max_message_length (_settings (self st2)) /\
  fst (_get_options st1) = fst (_get_options st2).
Proof.
  intros st1 st2. split; [reflexivity|].
  apply (get_options_noninterference bool st1 st2). reflexivity.
Defined.

Lemma create_server_registers_before_bind_witness :
  let pre :=
    [ returned (aio_server (mkThreadPoolExecutor 5) [LoggingInterceptor] []);
      returned (add_GRPCInferenceServiceServicer_to_server
                  (mkInferenceServicer (DataPlaneRef 0)) (ServerRef 0));
      returned (add_ModelRepositoryServiceServicer_to_server
                  (mkModelRepositoryServicer (ModelRepositoryHandlersRef 0))
                  (ServerRef 0)) ] in
  emitted (_create_server never_raises) (fresh_state settings_default) =
  pre ++ [returned (add_insecure_port (ServerRef 0) "0.0.0.0:8081")] /\
  In (returned (add_GRPCInferenceServiceServicer_to_server
                  (mkInferenceServicer (DataPlaneRef 0)) (ServerRef 0)))
     pre /\
  In (returned (add_ModelRepositoryServiceServicer_to_server
                  (mkModelRepositoryServicer (ModelRepositoryHandlersRef 0))
                  (ServerRef 0)))
     pre.
Proof.
  intros pre. split; [reflexivity|].
  destruct (create_server_registers_before_bind unit never_raises
              (fresh_state settings_default) pre []
              (ServerRef 0) "0.0.0.0:8081" Returned)
    as (Hinference & Hrepository & _).
  - reflexivity.
  - split; assumption.
Defined.

Lemma create_server_binds_insecure_witness :
  fst (_create_server never_raises (fresh_state settings_default)) =
  Ok (ServerRef 0) /\
  exists pre,
    emitted (_create_server never_raises) (fresh_state settings_default) =
    pre ++ [returned (add_insecure_port (ServerRef 0) "0.0.0.0:8081")] /\
    forallb (fun e => negb (is_port (fst e))) pre = true.
Proof.
  split; [reflexivity|].
  apply (proj2 (create_server_binds_insecure unit never_raises
                  (fresh_state settings_default)) (ServerRef 0)).
  reflexivity.
Defined.

Lemma start_logs_once_listening_witness :
  In (returned (server_start (ServerRef 0)))
     (emitted (start never_raises) (fresh_state settings_default)) /\
  log_lines (emitted (start never_raises) (fresh_state settings_default)) =
  1%nat /\
  occurs_in "0.0.0.0" "gRPC server running on http://0.0.0.0:8081" /\
  occurs_in "8081" "gRPC server running on http://0.0.0.0:8081".
Proof.
  assert (Hlisten :
            In (returned (server_start (ServerRef 0)))
               (emitted (start never_raises) (fresh_state settings_default))).
  { simpl. tauto. }
  split; [exact Hlisten|].
  destruct (start_logs_once_listening unit never_raises
              (fresh_state settings_default) (ServerRef 0) Hlisten)
    as (_ & Hone & _ & Hhost & Hport).
  split; [exact Hone|]. split; [exact Hhost | exact Hport].
Defined.

Lemma stop_requests_grace_5_witness :
  _server (self started_once) = Some (ServerRef 0) /\
  exists outcome,
    emitted (stop never_raises) started_once =
    [(server_stop (ServerRef 0) 5, outcome)] /\
    stop never_raises started_once =
    (match outcome with
     | Returned => Ok tt
     | Raised => Raise (TransportError (server_stop (ServerRef 0) 5))
     end,
     mkState (self started_once)
             (world started_once ++ [(server_stop (ServerRef 0) 5, outcome)])).
Proof.
  split; [reflexivity|].
  apply (proj2 (stop_requests_grace_5 unit never_raises started_once)
           (ServerRef 0)).
  reflexivity.
Defined.

Lemma stop_unstarted_fails_start_unguarded_witness :
  fst (start bind_refused (fresh_state settings_default)) =
  Raise (TransportError (add_insecure_port (ServerRef 0) "0.0.0.0:8081")) /\
  In (add_insecure_port (ServerRef 0) "0.0.0.0:8081", Raised)
     (emitted (start bind_refused) (fresh_state settings_default)).
Proof.
  split; [reflexivity|].
  destruct (proj2 (stop_unstarted_fails_start_unguarded unit bind_refused)
              (fresh_state settings_default)
              (TransportError
                 (add_insecure_port (ServerRef 0) "0.0.0.0:8081"))
              eq_refl)
    as (c & Hc & Hin).
  injection Hc as <-. exact Hin.
Defined.

(** * Where the code departs from the stated behaviour *)

(** C2 as stated does not hold: a second [start] on the same manager, after
    the first one has returned, raises nothing; it runs to its end. *)
Lemma second_start_proceeds :
  fst (start never_raises (fresh_state settings_default)) = Ok tt /\
  fst (start never_raises started_once) = Ok tt /\
  ~ (exists e, fst (start never_raises started_once) = Raise e).
Proof.
  split; [reflexivity|]. split; [reflexivity|].
  intros [e He]. discriminate He.
Qed.

(** C3 as stated does not hold: the second [start] creates a second server
    instance and replaces the manager's handle with it. *)
Lemma second_start_recreates_server :
  _server (self started_once) = Some (ServerRef 0) /\
  _server (self started_twice) = Some (ServerRef 1) /\
  servers_created (world started_once) = 1%nat /\
  servers_created (world started_twice) = 2%nat /\
  _server (self started_twice) <> _server (self started_once).
Proof.
  repeat split. discriminate.
Qed.

(** * Further properties of the lifecycle *)

Section Lifecycle_properties.

Variable Rest : Type.
Variable raises : Trace -> Call -> bool.

Implicit Types (st : State Rest) (t es : Trace) (cs : list Call).

(** ** Failing fast *)

(** In a sequence of calls, a call that raised is the last one made, the
    sequence reports it, and every call before it returned. *)
Lemma run_calls_raised_last : forall cs t pre c post,
  fst (run_calls raises t cs) = pre ++ (c, Raised) :: post ->
  post = [] /\
  snd (run_calls raises t cs) = Some c /\
  Forall (fun e => snd e = Returned) pre.
Proof.
  induction cs as [|c0 cs IH]; intros t pre c post H; simpl in H.
  - destruct pre; discriminate H.
  - simpl. destruct (raises t c0) eqn:Hc0; simpl in *.
    + destruct pre as [|e pre]; simpl in H.
      * injection H as <- <-. auto.
      * injection H as _ H. destruct pre; discriminate H.
    + destruct (run_calls raises (t ++ [(c0, Returned)]) cs)
        as [es failed] eqn:Hrun.
      simpl in *. destruct pre as [|e pre]; simpl in H.
      * discriminate H.
      * injection H as <- H.
        specialize (IH (t ++ [(c0, Returned)]) pre c post).
        rewrite Hrun in IH. destruct (IH H) as (Hpost & Hfailed & Hpre).
        repeat split; auto.
Qed.

(** X3: in every execution of [start], a call that raised is the last
    call [start] makes: every call before it returned, nothing is attempted
    after it, and [start] raises that call's exception. *)
Theorem start_raised_call_is_last : forall st pre c post,
  emitted (start raises) st = pre ++ (c, Raised) :: post ->
  post = [] /\
  fst (start raises st) = Raise (TransportError c) /\
  Forall (fun e => snd e = Returned) pre.
Proof.
  intros st pre c post H. rewrite emitted_start in H.
  destruct (run_calls_raised_last _ _ _ _ _ H) as (Hpost & Hfailed & Hpre).
  rewrite start_run. cbn [fst]. rewrite Hfailed. auto.
Qed.

(** ** The order of the calls of [start] *)

(** X1: in every execution of [start], the server is started only once its
    construction is complete: when [start] calls the server's [start], the
    calls before it are exactly [aio.server], the two registrations and the
    binding of [host:port], all on that server and all returned. *)
Theorem start_listens_after_construction :
  forall st pre post server outcome,
    emitted (start raises) st = pre ++ (server_start server, outcome) :: post ->
    exists options,
      pre =
      [ returned (aio_server (mkThreadPoolExecutor 5) [LoggingInterceptor]
                             options);
        returned (add_GRPCInferenceServiceServicer_to_server
                    (mkInferenceServicer (_data_plane (self st))) server);
        returned (add_ModelRepositoryServiceServicer_to_server
                    (mkModelRepositoryServicer
                       (_model_repository_handlers (self st))) server);
        returned (add_insecure_port server
                    (host (_settings (self st)) ++ ":" ++
                     py_str_int (grpc_port (_settings (self st))))%string) ].
Proof.
  intros st pre post server outcome H. rewrite emitted_start in H.
  unfold create_script, listen_script, address in H. simpl in H.
  each_outcome raises; locate H.
  all: injection H as ? ? ?; subst; eexists; reflexivity.
Qed.

(** X2: [start] returns normally exactly when its last call is the wait
    for termination and that wait returned; it has then made seven calls,
    all returned, and holds the server it waited on. *)
Theorem start_returns_after_termination : forall st,
  (fst (start raises st) = Ok tt ->
   exists pre server,
     emitted (start raises) st =
     pre ++ [returned (wait_for_termination server)] /\
     List.length pre = 6%nat /\
     Forall (fun e => snd e = Returned) pre /\
     _server (self (exec (start raises) st)) = Some server) /\
  (forall pre server,
      emitted (start raises) st =
      pre ++ [returned (wait_for_termination server)] ->
      fst (start raises st) = Ok tt).
Proof.
  intros st. unfold exec. rewrite emitted_start, start_run.
  unfold create_script, listen_script. simpl. split.
  - intros Hok. each_outcome raises; try discriminate Hok.
    eexists [_; _; _; _; _; _]; eexists.
    repeat split; repeat constructor.
  - intros pre server Hes. unfold returned in Hes.
    each_outcome raises; locate Hes; try discriminate Hes.
    all: try (destruct pre; discriminate Hes).
    all: reflexivity.
Qed.

(** ** What a failed [start] leaves behind *)

(** X5: when [start] fails on a call made after [aio.server] returned (a
    registration, the binding, the server's start or the wait), the manager
    keeps the server it has just created, and a [stop] called next stops
    that server with a grace of 5 instead of raising an attribute error. *)
Theorem stop_after_failed_start : forall st c,
  fst (start raises st) = Raise (TransportError c) ->
  is_aio_server c = false ->
  let st' := exec (start raises) st in
  _server (self st') = Some (ServerRef (servers_created (world st))) /\
  exists outcome,
    emitted (stop raises) st' =
    [(server_stop (ServerRef (servers_created (world st))) 5, outcome)].
Proof.
  intros st c He Hc st'. subst st'. unfold exec.
  rewrite emitted_stop. rewrite start_run in *.
  unfold create_script, listen_script, fresh_server in *. simpl in *.
  each_outcome raises; try discriminate He.
  all: injection He as <-; try discriminate Hc.
  all: split; [reflexivity | eexists; reflexivity].
Qed.

(** X6: when [aio.server] itself raises in the first [start] of a manager,
    that is the only call made; the manager is left without server, so that
    a [stop] called next raises the attribute error, but both servicers
    have been assigned already. *)
Theorem stop_after_failed_aio_server : forall cfg dp mrh t c,
  let st := mkState (__init__ (Rest:=Rest) cfg dp mrh) t in
  let st' := exec (start raises) st in
  fst (start raises st) = Raise (TransportError c) ->
  is_aio_server c = true ->
  emitted (start raises) st = [(c, Raised)] /\
  stop raises st' = (Raise (AttributeError "_server"), st') /\
  _inference_servicer (self st') = Some (mkInferenceServicer dp) /\
  _model_repository_servicer (self st') =
  Some (mkModelRepositoryServicer mrh).
Proof.
  intros cfg dp mrh t c st st' He Hc. subst st' st. unfold exec.
  rewrite emitted_start, stop_run. rewrite start_run in *.
  unfold create_script, listen_script in *. simpl in *.
  each_outcome raises; try discriminate He.
  all: injection He as <-; try discriminate Hc.
  repeat split.
Qed.

(** ** How the parts fit together *)

(** X7: the server is built from what the option builder returns and from
    the logging interceptor alone: with a maximum message length [N] the
    first call of [_create_server] hands [aio.server] the three size
    entries with value [N], without one it hands over no option. *)
Theorem create_server_passes_options : forall st,
  exists outcome others,
    emitted (_create_server raises) st =
    (aio_server (mkThreadPoolExecutor 5) [LoggingInterceptor]
       match grpc_max_message_length (_settings (self st)) with
       | Some N => [ ("grpc.max_message_length", N);
                     ("grpc.max_send_message_length", N);
                     ("grpc.max_receive_message_length", N) ]
       | None => []
       end, outcome) :: others.
Proof.
  intros st. rewrite emitted_create.
  unfold create_script, options_at, _get_options, bind, get_self, ret.
  simpl.
  destruct (grpc_max_message_length (_settings (self st))); simpl;
    each_outcome raises; eexists; eexists; reflexivity.
Qed.

(** X8: the line [start] logs reports the address that was bound: it is
    the fixed text, the scheme [http://] and then the very address string
    given to [add_insecure_port]. *)
Theorem log_reports_bound_address :
  forall st server addr outcome msg outcome',
    In (add_insecure_port server addr, outcome) (emitted (start raises) st) ->
    In (logger_info msg, outcome') (emitted (start raises) st) ->
    msg = ("gRPC server running on http://" ++ addr)%string.
Proof.
  intros st server addr outcome msg outcome' Hbind Hlog.
  rewrite emitted_start in *.
  unfold create_script, listen_script, running_message, address in *.
  simpl in *.
  each_outcome raises; each_member Hlog; try discriminate Hlog.
  all: injection Hlog as <- _.
  all: each_member Hbind; try discriminate Hbind.
  all: injection Hbind as _ <- _; reflexivity.
Qed.

(** X9: [start] looks at nothing a previous [start] left on the manager:
    on two managers with the same configuration and handlers, in the same
    outside world, it makes the same calls and ends the same way, whatever
    server and servicers either of them held before. *)
Theorem start_ignores_previous_attributes : forall st1 st2,
  _settings (self st1) = _settings (self st2) ->
  _data_plane (self st1) = _data_plane (self st2) ->
  _model_repository_handlers (self st1) =
  _model_repository_handlers (self st2) ->
  world st1 = world st2 ->
  fst (start raises st1) = fst (start raises st2) /\
  emitted (start raises) st1 = emitted (start raises) st2 /\
  world (exec (start raises) st1) = world (exec (start raises) st2).
Proof.
  intros st1 st2 Hcfg Hdp Hmrh Hworld.
  assert (Hcreate : create_script st1 = create_script st2).
  { unfold create_script, fresh_server.
    rewrite (options_at_settings Rest st1 st2) by (rewrite Hcfg; reflexivity).
    rewrite Hcfg, Hdp, Hmrh, Hworld. reflexivity. }
  assert (Hlisten : listen_script st1 = listen_script st2).
  { unfold listen_script, fresh_server. rewrite Hcfg, Hworld. reflexivity. }
  unfold exec. rewrite !emitted_start, !start_run. cbn [fst snd world].
  rewrite Hcreate, Hlisten, Hworld. repeat split.
Qed.

(** X13: [stop] does not forget the server: after a [stop], whether the
    server's [stop] returned or raised, a second [stop] makes the same call
    on the same server again. *)
Theorem stop_again_repeats_call : forall st server,
  _server (self st) = Some server ->
  exists outcome,
    emitted (stop raises) (exec (stop raises) st) =
    [(server_stop server 5, outcome)].
Proof.
  intros st server Hsrv. unfold exec. rewrite emitted_stop, stop_run, Hsrv.
  unfold call. simpl.
  destruct (raises (world st) (server_stop server 5)); simpl;
    rewrite Hsrv; eexists; reflexivity.
Qed.

(** ** What holds through any sequence of calls *)

Lemma invoke_keeps_configuration : forall m st,
  _settings (self (invoke raises m st)) = _settings (self st) /\
  _data_plane (self (invoke raises m st)) = _data_plane (self st) /\
  _model_repository_handlers (self (invoke raises m st)) =
  _model_repository_handlers (self st).
Proof.
  intros m st. destruct m; unfold invoke, exec.
  - rewrite start_run. repeat split.
  - rewrite stop_run. destruct (_server (self st)) as [server|].
    + unfold call. destruct (raises (world st) (server_stop server 5));
        repeat split.
    + repeat split.
  - rewrite _create_server_run. repeat split.
  - rewrite _get_options_run. repeat split.
Qed.

Lemma session_keeps_configuration_aux : forall ms st,
  _settings (self (session raises ms st)) = _settings (self st) /\
  _data_plane (self (session raises ms st)) = _data_plane (self st) /\
  _model_repository_handlers (self (session raises ms st)) =
  _model_repository_handlers (self st).
Proof.
  induction ms as [|m ms IH]; intros st; simpl.
  - repeat split.
  - destruct (IH (invoke raises m st)) as (Hcfg & Hdp & Hmrh).
    destruct (invoke_keeps_configuration m st) as (Hcfg' & Hdp' & Hmrh').
    unfold session in *. rewrite Hcfg, Hdp, Hmrh. auto.
Qed.

(** X10: the configuration and the two handlers given to the constructor
    are never replaced: after any sequence of [start], [stop],
    [_create_server] and [_get_options] calls, whichever of them failed,
    the manager holds the same three objects. *)
Theorem session_keeps_configuration : forall ms st,
  _settings (self (session raises ms st)) = _settings (self st) /\
  _data_plane (self (session raises ms st)) = _data_plane (self st) /\
  _model_repository_handlers (self (session raises ms st)) =
  _model_repository_handlers (self st).
Proof.
  intros ms st. apply session_keeps_configuration_aux.
Qed.

Lemma constructed_well_formed : forall st es,
  well_formed st ->
  servers_created es =
  (if raises (world st)
        (aio_server (mkThreadPoolExecutor DefaultGrpcWorkers)
                    [LoggingInterceptor] (options_at st))
   then 0 else 1)%nat ->
  well_formed
    (mkState
       (assigned st
          (negb (raises (world st)
                   (aio_server (mkThreadPoolExecutor DefaultGrpcWorkers)
                               [LoggingInterceptor] (options_at st)))))
       (world st ++ es)).
Proof.
  intros st es Hwf Hcount server Hsrv. cbn [self world] in *.
  rewrite servers_created_app, Hcount. unfold assigned in *. simpl in *.
  destruct (raises (world st)
              (aio_server (mkThreadPoolExecutor DefaultGrpcWorkers)
                          [LoggingInterceptor] (options_at st)));
    simpl in *.
  - destruct (Hwf server Hsrv) as ((n & Hn & Hserver) & _ & _).
    repeat split. exists n. rewrite Nat.add_0_r. auto.
  - injection Hsrv as <-. repeat split.
    exists (servers_created (world st)). rewrite Nat.add_1_r. auto.
Qed.

Lemma invoke_keeps_well_formed : forall m st,
  well_formed st -> well_formed (invoke raises m st).
Proof.
  intros m st Hwf. destruct m; unfold invoke, exec.
  - rewrite start_run. cbn [snd]. apply constructed_well_formed; [exact Hwf|].
    unfold create_script, listen_script. simpl.
    each_outcome raises; reflexivity.
  - rewrite stop_run. destruct (_server (self st)) as [server|] eqn:Hsrv.
    + unfold call. intros server' Hsrv'.
      destruct (raises (world st) (server_stop server 5));
        cbn [snd self world] in *;
        rewrite servers_created_app, Nat.add_0_r; apply Hwf; exact Hsrv'.
    + exact Hwf.
  - rewrite _create_server_run. cbn [snd].
    apply constructed_well_formed; [exact Hwf|].
    unfold create_script. simpl. each_outcome raises; reflexivity.
  - rewrite _get_options_run. exact Hwf.
Qed.

(** X11: from its construction on and through any sequence of [start],
    [stop], [_create_server] and [_get_options] calls, whichever of them
    failed, a manager that holds a server holds the last server
    [aio.server] handed out, together with both servicers, each wrapping
    the handler given to the constructor. *)
Theorem session_keeps_well_formed : forall cfg dp mrh t ms server,
  let st := session raises ms (mkState (__init__ (Rest:=Rest) cfg dp mrh) t) in
  _server (self st) = Some server ->
  (exists n, servers_created (world st) = S n /\ server = ServerRef n) /\
  _inference_servicer (self st) = Some (mkInferenceServicer dp) /\
  _model_repository_servicer (self st) =
  Some (mkModelRepositoryServicer mrh).
Proof.
  intros cfg dp mrh t ms server st Hsrv. subst st.
  assert (Hwf : forall ms' st0, well_formed st0 ->
                                well_formed (session raises ms' st0)).
  { induction ms' as [|m ms' IH]; intros st0 H0; simpl.
    - exact H0.
    - apply IH. apply invoke_keeps_well_formed. exact H0. }
  assert (Hinit : well_formed (mkState (__init__ (Rest:=Rest) cfg dp mrh) t)).
  { intros server' H'. discriminate H'. }
  destruct (Hwf ms _ Hinit server Hsrv) as (Hlast & Hinf & Hrepo).
  destruct (session_keeps_configuration_aux ms
              (mkState (__init__ (Rest:=Rest) cfg dp mrh) t))
    as (_ & Hdp & Hmrh).
  rewrite Hdp in Hinf. rewrite Hmrh in Hrepo.
  split; [exact Hlast|]. split; [exact Hinf | exact Hrepo].
Qed.

Lemma session_well_formed : forall ms st,
  well_formed st -> well_formed (session raises ms st).
Proof.
  induction ms as [|m ms IH]; intros st Hwf; simpl.
  - exact Hwf.
  - apply IH. apply invoke_keeps_well_formed. exact Hwf.
Qed.

Lemma held_server_is_older : forall st held,
  well_formed st ->
  _server (self st) = Some held ->
  held <> ServerRef (servers_created (world st)).
Proof.
  intros st held Hwf Hheld.
  destruct (Hwf held Hheld) as ((n & Hn & ->) & _).
  rewrite Hn. intros [= Heq]. exact (Nat.neq_succ_diag_r n Heq).
Qed.

(** X4: [start] never stops a server, and every call it makes on a server
    is made on the server that this very [start] obtained from
    [aio.server]; on a manager reached from its construction by any
    sequence of [start], [stop], [_create_server] and [_get_options] calls,
    the server the manager holds when [start] is called is a different one,
    so that no call of [start] is made on it. *)
Theorem start_targets_new_server_only : forall st c outcome,
  In (c, outcome) (emitted (start raises) st) ->
  is_stop c = false /\
  (forall server,
      server_of c = Some server ->
      server = ServerRef (servers_created (world st))) /\
  (forall cfg dp mrh t ms held,
      st = session raises ms (mkState (__init__ cfg dp mrh) t) ->
      _server (self st) = Some held ->
      server_of c <> Some held).
Proof.
  intros st c outcome Hin.
  assert (Hnew : is_stop c = false /\
                 forall server,
                   server_of c = Some server ->
                   server = ServerRef (servers_created (world st))).
  { rewrite emitted_start in Hin.
    unfold create_script, listen_script, fresh_server in Hin. simpl in Hin.
    each_outcome raises; each_member Hin.
    all: injection Hin as <- _; split; [reflexivity|].
    all: intros server Hserver; try discriminate Hserver.
    all: injection Hserver as <-; reflexivity. }
  destruct Hnew as [Hstop Hnew]. split; [exact Hstop|]. split; [exact Hnew|].
  intros cfg dp mrh t ms held Hreached Hheld Hcall.
  apply (held_server_is_older st held).
  - rewrite Hreached. apply session_well_formed.
    intros server' H'. discriminate H'.
  - exact Hheld.
  - apply Hnew. exact Hcall.
Qed.

(** ** The address *)

Lemma py_str_int_inj : forall a b : PyInt,
  py_str_int a = py_str_int b -> a = b.
Proof.
  intros a b H. apply DecimalZ.to_int_inj.
  assert (Hproper : forall n : Z,
             NilZero.int_of_string (py_str_int n) = Some (Z.to_int n)).
  { intros n. unfold py_str_int. apply NilZero.isi.
    - destruct n; simpl; try discriminate.
      intros [= Hnil]. exact (DecimalPos.Unsigned.to_uint_nonnil _ Hnil).
    - destruct n; simpl; try discriminate.
      intros [= Hnil]. exact (DecimalPos.Unsigned.to_uint_nonnil _ Hnil). }
  assert (Hsome : Some (Z.to_int a) = Some (Z.to_int b)).
  { rewrite <- !Hproper, H. reflexivity. }
  injection Hsome as Heq. exact Heq.
Qed.

Lemma append_cancel_l : forall p a b : string,
  (p ++ a)%string = (p ++ b)%string -> a = b.
Proof.
  induction p as [|ch p IH]; intros a b H; simpl in H.
  - exact H.
  - injection H as H. apply IH. exact H.
Qed.

Lemma bound_address : forall st server addr outcome,
  In (add_insecure_port server addr, outcome)
     (emitted (_create_server raises) st) ->
  addr = address (_settings (self st)).
Proof.
  intros st server addr outcome Hin. rewrite emitted_create in Hin.
  unfold create_script in Hin. simpl in Hin.
  each_outcome raises; each_member Hin; try discriminate Hin.
  all: injection Hin as _ <- _; reflexivity.
Qed.

(** X12: the bound address tells the port: two managers configured with
    the same host bind the same address string only if their ports are the
    same integer. *)
Theorem bound_address_determines_port :
  forall st1 st2 server1 server2 addr outcome1 outcome2,
    host (_settings (self st1)) = host (_settings (self st2)) ->
    In (add_insecure_port server1 addr, outcome1)
       (emitted (_create_server raises) st1) ->
    In (add_insecure_port server2 addr, outcome2)
       (emitted (_create_server raises) st2) ->
    grpc_port (_settings (self st1)) = grpc_port (_settings (self st2)).
Proof.
  intros st1 st2 server1 server2 addr outcome1 outcome2 Hhost H1 H2.
  apply bound_address in H1. apply bound_address in H2.
  rewrite H1 in H2. unfold address in H2. rewrite Hhost in H2.
  apply append_cancel_l in H2. simpl in H2. injection H2 as H2.
  apply py_str_int_inj. exact H2.
Qed.

(** ** Construction alone *)

(** X14: [_create_server] returns the server it has stored: when it
    returns normally, the result is the manager's [_server], it is the
    server [aio.server] has just handed out, and one more server exists
    than before. *)
Theorem create_server_returns_stored_server : forall st server,
  fst (_create_server raises st) = Ok server ->
  let st' := exec (_create_server raises) st in
  _server (self st') = Some server /\
  server = ServerRef (servers_created (world st)) /\
  servers_created (world st') = S (servers_created (world st)).
Proof.
  intros st server Hok st'. subst st'. unfold exec.
  rewrite _create_server_run in *.
  unfold create_script, fresh_server in *. simpl in *.
  each_outcome raises; try discriminate Hok.
  injection Hok as <-. rewrite servers_created_app. simpl.
  rewrite Nat.add_1_r. auto.
Qed.

(** X15: construction does not make the server listen: [_create_server]
    makes at most four calls, and none of them starts the server, waits for
    its termination, stops it or logs. *)
Theorem create_server_does_not_listen : forall st,
  (List.length (emitted (_create_server raises) st) <= 4)%nat /\
  forall c outcome,
    In (c, outcome) (emitted (_create_server raises) st) ->
    match c with
    | server_start _ | wait_for_termination _
    | server_stop _ _ | logger_info _ => False
    | _ => True
    end.
Proof.
  intros st. rewrite emitted_create. unfold create_script. simpl. split.
  - each_outcome raises; simpl; auto with arith.
  - intros c outcome Hin.
    each_outcome raises; each_member Hin.
    all: injection Hin as <- _; exact I.
Qed.

(** X16: [start] logs that the server is running only when the server's
    [start] has returned before: a server that failed to start, to bind or
    to be built is never announced. *)
Theorem start_logs_only_when_listening : forall st msg outcome pre post,
  emitted (start raises) st = pre ++ (logger_info msg, outcome) :: post ->
  In (returned (server_start (ServerRef (servers_created (world st))))) pre.
Proof.
  intros st msg outcome pre post H. rewrite emitted_start in H.
  unfold create_script, listen_script, fresh_server in H. simpl in H.
  each_outcome raises; locate H.
  all: simpl; unfold returned; tauto.
Qed.

End Lifecycle_properties.

(** * The further properties at work on the scenarios *)

Lemma start_raised_call_is_last_witness :
  let pre :=
    [ returned (aio_server (mkThreadPoolExecutor 5) [LoggingInterceptor] []);
      returned (add_GRPCInferenceServiceServicer_to_server
                  (mkInferenceServicer (DataPlaneRef 0)) (ServerRef 0));
      returned (add_ModelRepositoryServiceServicer_to_server
                  (mkModelRepositoryServicer (ModelRepositoryHandlersRef 0))
                  (ServerRef 0)) ] in
  let c := add_insecure_port (ServerRef 0) "0.0.0.0:8081" in
  emitted (start bind_refused) (fresh_state settings_default) =
  pre ++ [(c, Raised)] /\
  fst (start bind_refused (fresh_state settings_default)) =
  Raise (TransportError c).
Proof.
  intros pre c. split; [reflexivity|].
  destruct (start_raised_call_is_last unit bind_refused
              (fresh_state settings_default) pre c [] eq_refl)
    as (_ & Hraise & _).
  exact Hraise.
Defined.

Lemma start_listens_after_construction_witness :
  let pre :=
    [ returned (aio_server (mkThreadPoolExecutor 5) [LoggingInterceptor] []);
      returned (add_GRPCInferenceServiceServicer_to_server
                  (mkInferenceServicer (DataPlaneRef 0)) (ServerRef 0));
      returned (add_ModelRepositoryServiceServicer_to_server
                  (mkModelRepositoryServicer (ModelRepositoryHandlersRef 0))
                  (ServerRef 0));
      returned (add_insecure_port (ServerRef 0) "0.0.0.0:8081") ] in
  let post :=
    [ returned (logger_info "gRPC server running on http://0.0.0.0:8081");
      returned (wait_for_termination (ServerRef 0)) ] in
  emitted (start never_raises) (fresh_state settings_default) =
  pre ++ returned (server_start (ServerRef 0)) :: post /\
  exists options,
    pre =
    [ returned (aio_server (mkThreadPoolExecutor 5) [LoggingInterceptor]
                           options);
      returned (add_GRPCInferenceServiceServicer_to_server
                  (mkInferenceServicer (DataPlaneRef 0)) (ServerRef 0));
      returned (add_ModelRepositoryServiceServicer_to_server
                  (mkModelRepositoryServicer (ModelRepositoryHandlersRef 0))
                  (ServerRef 0));
      returned (add_insecure_port (ServerRef 0) "0.0.0.0:8081") ].
Proof.
  intros pre post. split; [reflexivity|].
  apply (start_listens_after_construction unit never_raises
           (fresh_state settings_default) pre post (ServerRef 0) Returned).
  reflexivity.
Defined.

Lemma start_returns_after_termination_witness :
  fst (start never_raises (fresh_state settings_default)) = Ok tt /\
  exists pre server,
    emitted (start never_raises) (fresh_state settings_default) =
    pre ++ [returned (wait_for_termination server)] /\
    List.length pre = 6%nat /\
    Forall (fun e => snd e = Returned) pre /\
    _server (self started_once) = Some server.
Proof.
  split; [reflexivity|].
  apply (proj1 (start_returns_after_termination unit never_raises
                  (fresh_state settings_default))).
  reflexivity.
Defined.

Lemma start_targets_new_server_only_witness :
  started_once =
  session never_raises [call_start] (fresh_state settings_default) /\
  _server (self started_once) = Some (ServerRef 0) /\
  In (returned (server_start (ServerRef 1)))
     (emitted (start never_raises) started_once) /\
  server_of (server_start (ServerRef 1)) <> Some (ServerRef 0).
Proof.
  assert (Hin : In (returned (server_start (ServerRef 1)))
                   (emitted (start never_raises) started_once)).
  { simpl. tauto. }
  split; [reflexivity|]. split; [reflexivity|]. split; [exact Hin|].
  destruct (start_targets_new_server_only unit never_raises started_once
              (server_start (ServerRef 1)) Returned Hin)
    as (_ & _ & Hheld).
  apply (Hheld settings_default (DataPlaneRef 0)
               (ModelRepositoryHandlersRef 0) [] [call_start] (ServerRef 0)).
  - reflexivity.
  - reflexivity.
Defined.

Lemma stop_after_failed_start_witness :
  fst (start bind_refused (fresh_state settings_default)) =
  Raise (TransportError (add_insecure_port (ServerRef 0) "0.0.0.0:8081")) /\
  exists outcome,
    emitted (stop bind_refused)
            (exec (start bind_refused) (fresh_state settings_default)) =
    [(server_stop (ServerRef 0) 5, outcome)].
Proof.
  split; [reflexivity|].
  apply (proj2 (stop_after_failed_start unit bind_refused
                  (fresh_state settings_default)
                  (add_insecure_port (ServerRef 0) "0.0.0.0:8081")
                  eq_refl eq_refl)).
Defined.

Lemma stop_after_failed_aio_server_witness :
  let c := aio_server (mkThreadPoolExecutor 5) [LoggingInterceptor] [] in
  let st' := exec (start aio_refused) (fresh_state settings_default) in
  fst (start aio_refused (fresh_state settings_default)) =
  Raise (TransportError c) /\
  stop aio_refused st' = (Raise (AttributeError "_server"), st').
Proof.
  intros c st'. split; [reflexivity|].
  destruct (stop_after_failed_aio_server unit aio_refused settings_default
              (DataPlaneRef 0) (ModelRepositoryHandlersRef 0) [] c
              eq_refl eq_refl)
    as (_ & Hstop & _).
  exact Hstop.
Defined.

Lemma log_reports_bound_address_witness :
  In (returned (add_insecure_port (ServerRef 0) "0.0.0.0:8081"))
     (emitted (start never_raises) (fresh_state settings_default)) /\
  In (returned (logger_info "gRPC server running on http://0.0.0.0:8081"))
     (emitted (start never_raises) (fresh_state settings_default)) /\
  "gRPC server running on http://0.0.0.0:8081" =
  ("gRPC server running on http://" ++ "0.0.0.0:8081")%string.
Proof.
  assert (Hbind :
            In (returned (add_insecure_port (ServerRef 0) "0.0.0.0:8081"))
               (emitted (start never_raises) (fresh_state settings_default))).
  { simpl. tauto. }
  assert (Hlog :
            In (returned
                  (logger_info "gRPC server running on http://0.0.0.0:8081"))
               (emitted (start never_raises) (fresh_state settings_default))).
  { simpl. tauto. }
  split; [exact Hbind|]. split; [exact Hlog|].
  apply (log_reports_bound_address unit never_raises
           (fresh_state settings_default) (ServerRef 0) "0.0.0.0:8081"
           Returned _ Returned Hbind Hlog).
Defined.

Lemma start_ignores_previous_attributes_witness :
  let st1 := fresh_state settings_default in
  let st2 := mkState (self started_once) [] in
  _server (self st1) = None /\
  _server (self st2) = Some (ServerRef 0) /\
  fst (start never_raises st1) = fst (start never_raises st2) /\
  emitted (start never_raises) st1 = emitted (start never_raises) st2.
Proof.
  intros st1 st2. split; [reflexivity|]. split; [reflexivity|].
  destruct (start_ignores_previous_attributes unit never_raises st1 st2
              eq_refl eq_refl eq_refl eq_refl)
    as (Hresult & Hcalls & _).
  split; [exact Hresult | exact Hcalls].
Defined.

Lemma session_keeps_well_formed_witness :
  let st :=
    session never_raises [call_start; call_stop; call_start]
            (fresh_state settings_default) in
  _server (self st) = Some (ServerRef 1) /\
  (exists n, servers_created (world st) = S n /\ ServerRef 1 = ServerRef n) /\
  _inference_servicer (self st) =
  Some (mkInferenceServicer (DataPlaneRef 0)).
Proof.
  intros st. split; [reflexivity|].
  destruct (session_keeps_well_formed unit never_raises settings_default
              (DataPlaneRef 0) (ModelRepositoryHandlersRef 0) []
              [call_start; call_stop; call_start] (ServerRef 1) eq_refl)
    as (Hlast & Hinference & _).
  split; [exact Hlast | exact Hinference].
Defined.

Lemma bound_address_determines_port_witness :
  In (returned (add_insecure_port (ServerRef 0) "0.0.0.0:8081"))
     (emitted (_create_server never_raises) (fresh_state settings_default)) /\
  In (returned (add_insecure_port (ServerRef 1) "0.0.0.0:8081"))
     (emitted (_create_server never_raises) started_once) /\
  grpc_port (_settings (self (fresh_state settings_default))) =
  grpc_port (_settings (self started_once)).
Proof.
  assert (H1 : In (returned (add_insecure_port (ServerRef 0) "0.0.0.0:8081"))
                  (emitted (_create_server never_raises)
                           (fresh_state settings_default))).
  { simpl. tauto. }
  assert (H2 : In (returned (add_insecure_port (ServerRef 1) "0.0.0.0:8081"))
                  (emitted (_create_server never_raises) started_once)).
  { simpl. tauto. }
  split; [exact H1|]. split; [exact H2|].
  apply (bound_address_determines_port unit never_raises
           (fresh_state settings_default) started_once
           (ServerRef 0) (ServerRef 1) "0.0.0.0:8081" Returned Returned
           eq_refl H1 H2).
Defined.

Lemma stop_again_repeats_call_witness :
  _server (self started_once) = Some (ServerRef 0) /\
  exists outcome,
    emitted (stop never_raises) (exec (stop never_raises) started_once) =
    [(server_stop (ServerRef 0) 5, outcome)].
Proof.
  split; [reflexivity|].
  apply (stop_again_repeats_call unit never_raises started_once (ServerRef 0)).
  reflexivity.
Defined.

Lemma create_server_returns_stored_server_witness :
  fst (_create_server never_raises started_once) = Ok (ServerRef 1) /\
  _server (self (exec (_create_server never_raises) started_once)) =
  Some (ServerRef 1) /\
  servers_created (world (exec (_create_server never_raises) started_once)) =
  2%nat.
Proof.
  split; [reflexivity|].
  destruct (create_server_returns_stored_server unit never_raises
              started_once (ServerRef 1) eq_refl)
    as (Hstored & _ & Hcount).
  split; [exact Hstored | exact Hcount].
Defined.

Lemma create_server_does_not_listen_witness :
  In (returned (add_insecure_port (ServerRef 0) "0.0.0.0:8081"))
     (emitted (_create_server never_raises) (fresh_state settings_default)) /\
  True.
Proof.
  assert (Hin : In (returned (add_insecure_port (ServerRef 0) "0.0.0.0:8081"))
                   (emitted (_create_server never_raises)
                            (fresh_state settings_default))).
  { simpl. tauto. }
  split; [exact Hin|].
  exact (proj2 (create_server_does_not_listen unit never_raises
                  (fresh_state settings_default))
               (add_insecure_port (ServerRef 0) "0.0.0.0:8081") Returned Hin).
Defined.

Lemma start_logs_only_when_listening_witness :
  let pre :=
    [ returned (aio_server (mkThreadPoolExecutor 5) [LoggingInterceptor] []);
      returned (add_GRPCInferenceServiceServicer_to_server
                  (mkInferenceServicer (DataPlaneRef 0)) (ServerRef 0));
      returned (add_ModelRepositoryServiceServicer_to_server
                  (mkModelRepositoryServicer (ModelRepositoryHandlersRef 0))
                  (ServerRef 0));
      returned (add_insecure_port (ServerRef 0) "0.0.0.0:8081");
      returned (server_start (ServerRef 0)) ] in
  emitted (start never_raises) (fresh_state settings_default) =
  pre ++ [ returned
             (logger_info "gRPC server running on http://0.0.0.0:8081");
           returned (wait_for_termination (ServerRef 0)) ] /\
  In (returned (server_start (ServerRef 0))) pre.
Proof.
  intros pre. split; [reflexivity|].
  apply (start_logs_only_when_listening unit never_raises
           (fresh_state settings_default)
           "gRPC server running on http://0.0.0.0:8081" Returned pre
           [returned (wait_for_termination (ServerRef 0))]).
  reflexivity.
Defined.
